(** * PriusControllerRos: the tracking session of the car demo

  A shallow embedding of [car_demo/src/PriusControllerRos.cpp].  The node
  is a record of its member variables; every member function is a
  computation in a small state-and-trace monad: it reads and writes the
  node and emits the calls that leave the object (messages published on
  [/prius_controls], ROS log lines, calls into the path tracker). *)

From Stdlib Require Import List Bool String PrimFloat PeanoNat Lia.
Import ListNotations.

Set Implicit Arguments.

(* 0.8 and 0.02 are read as the nearest binary64 values, as the compiler
   of the source reads them. *)
Set Warnings "-inexact-float".

(** ** Messages *)

(** [double]: binary64, as in the source.  The code only stores and copies
  doubles; no arithmetic is performed on them. *)
Definition double : Type := float.

Module geometry_msgs.

Record Point := { Point_x : double; Point_y : double; Point_z : double }.

Record Quaternion :=
  { Quaternion_x : double; Quaternion_y : double;
    Quaternion_z : double; Quaternion_w : double }.

Record Vector3 := { Vector3_x : double; Vector3_y : double; Vector3_z : double }.

Record Pose := { position : Point; orientation : Quaternion }.

Record Twist := { linear : Vector3; angular : Vector3 }.

Record PoseWithCovariance := { pose : Pose; pose_covariance : list double }.

Record TwistWithCovariance := { twist : Twist; twist_covariance : list double }.

End geometry_msgs.

Module nav_msgs.

(** [nav_msgs::Odometry]; of the header only the frame names are kept. *)
Record Odometry :=
  { frame_id : string;
    child_frame_id : string;
    pose : geometry_msgs.PoseWithCovariance;
    twist : geometry_msgs.TwistWithCovariance }.

(** The value of a default-constructed message: every number is zero and
    every string is empty. *)
Definition Odometry_default : Odometry :=
  {| frame_id := EmptyString;
     child_frame_id := EmptyString;
     pose :=
       {| geometry_msgs.pose :=
            {| geometry_msgs.position := geometry_msgs.Build_Point 0%float 0%float 0%float;
               geometry_msgs.orientation := geometry_msgs.Build_Quaternion 0%float 0%float 0%float 0%float |};
          geometry_msgs.pose_covariance := repeat 0%float 36 |};
     twist :=
       {| geometry_msgs.twist :=
            {| geometry_msgs.linear := geometry_msgs.Build_Vector3 0%float 0%float 0%float;
               geometry_msgs.angular := geometry_msgs.Build_Vector3 0%float 0%float 0%float |};
          geometry_msgs.twist_covariance := repeat 0%float 36 |} |}.

End nav_msgs.

Module prius_msgs.

(** Modelled from the spec: the declaration of [prius_msgs::PriusControl]
    is not among the sources; the spec gives a command a gear out of
    Forward, Reverse, Neutral and Park, a steering value and a throttle
    value.  [advance] names the gear [FORWARD] and the fields [gear_],
    [steer_] and [throttle_]. *)
Inductive Gear := FORWARD | REVERSE | NEUTRAL | PARK.

Record PriusControl :=
  { gear_ : Gear; steer_ : double; throttle_ : double }.

Definition set_gear_ (g : Gear) (c : PriusControl) : PriusControl :=
  {| gear_ := g; steer_ := steer_ c; throttle_ := throttle_ c |}.

Definition set_steer_ (x : double) (c : PriusControl) : PriusControl :=
  {| gear_ := gear_ c; steer_ := x; throttle_ := throttle_ c |}.

Definition set_throttle_ (x : double) (c : PriusControl) : PriusControl :=
  {| gear_ := gear_ c; steer_ := steer_ c; throttle_ := x |}.

End prius_msgs.

Module se2_navigation_msgs.

(** A path segment: its driving direction and its poses. *)
Record PathSegment :=
  { forward_ : bool; point_ : list geometry_msgs.Pose }.

Record Path := { segment_ : list PathSegment }.

(** [ControllerCommand::Command]; [Unknown] stands for every value that
    the [switch] of [controllerCommandService] sends to [default]. *)
Inductive Command := StartTracking | StopTracking | Unknown.

End se2_navigation_msgs.

Module pure_pursuit.

(** The path tracker behind [pathTracker_], an object of the pure_pursuit
    library with state of its own (type [T]).  [advance] steps the tracker
    and reports success; [stopTracking] changes its state; the two getters
    only read it. *)
Class PathTracker (T : Type) :=
  { advance : T -> bool * T;
    getSteeringAngle : T -> double;
    getLongitudinalVelocity : T -> double;
    stopTracking : T -> T }.

End pure_pursuit.

(** ** What leaves the node *)

Inductive Severity := INFO | WARN | ERROR.

Inductive TrackerCall :=
| call_advance
| call_getSteeringAngle
| call_getLongitudinalVelocity
| call_stopTracking.

Inductive Effect :=
| Publish (ctrl : prius_msgs.PriusControl)
  (** [priusControlPub_.publish(prius_msgs::convert(ctrl))] *)
| Log (sev : Severity) (msg : string)
| LogSize (sev : Severity) (msg : string) (size : nat)
  (** a log line that ends in a streamed [size()] *)
| Call (c : TrackerCall).

(** ** The node *)

Record PriusControllerRos (T : Type) :=
  { dt_ : double;
    planReceived_ : bool;
    currentlyExecutingPlan_ : bool;
    receivedStartTrackingCommand_ : bool;
    publishTrackingStatus_ : bool;
    priusState_ : nav_msgs.Odometry;
    pathTracker_ : T }.

(** Response of the current-state service. *)
Record CurrentStateResponse :=
  { res_pose : geometry_msgs.Pose; res_twist : geometry_msgs.Twist }.

(** What a callback hands back to its caller. *)
Inductive Reply :=
| NoReply
| CurrentStateReply (ok : bool) (res : CurrentStateResponse)
| ControllerCommandReply (ok : bool).

Inductive Event :=
| PathMsg (pathMsg : se2_navigation_msgs.Path)
| OdometryMsg (odometry : nav_msgs.Odometry)
| ControllerCommandRequest (command : se2_navigation_msgs.Command)
| CurrentStateRequest
| Tick.

(** ** A concrete tracker and concrete messages, for examples *)

(** A tracker that replays a script: [advance] answers with the head of the
    script and fails once the script is used up; [stopTracking] drops the
    rest of the script.  It reports the steering angle and the velocity it
    was built with. *)
Record ScriptedTracker :=
  { script : list bool; steering_ : double; velocity_ : double }.

#[global] Instance ScriptedTracker_ops : pure_pursuit.PathTracker ScriptedTracker :=
  {| pure_pursuit.advance t :=
       match script t with
       | [] => (false, t)
       | ok :: rest =>
           (ok, {| script := rest; steering_ := steering_ t; velocity_ := velocity_ t |})
       end;
     pure_pursuit.getSteeringAngle t := steering_ t;
     pure_pursuit.getLongitudinalVelocity t := velocity_ t;
     pure_pursuit.stopTracking t :=
       {| script := []; steering_ := steering_ t; velocity_ := velocity_ t |} |}.

Definition demo_tracker (answers : list bool) : ScriptedTracker :=
  {| script := answers; steering_ := 0.25%float; velocity_ := 1.5%float |}.

Definition demo_default : prius_msgs.PriusControl :=
  {| prius_msgs.gear_ := prius_msgs.NEUTRAL;
     prius_msgs.steer_ := 0%float;
     prius_msgs.throttle_ := 0%float |}.

(** A fail-safe command as the spec describes it: forward gear, neutral
    steering, zero throttle. *)
Definition demo_failProof : prius_msgs.PriusControl :=
  {| prius_msgs.gear_ := prius_msgs.FORWARD;
     prius_msgs.steer_ := 0%float;
     prius_msgs.throttle_ := 0%float |}.

Definition demo_segment : se2_navigation_msgs.PathSegment :=
  {| se2_navigation_msgs.forward_ := true; se2_navigation_msgs.point_ := [] |}.

Definition demo_plan1 : se2_navigation_msgs.Path :=
  {| se2_navigation_msgs.segment_ := [demo_segment] |}.

Definition demo_plan2 : se2_navigation_msgs.Path :=
  {| se2_navigation_msgs.segment_ := [demo_segment; demo_segment] |}.

Definition demo_empty_plan : se2_navigation_msgs.Path :=
  {| se2_navigation_msgs.segment_ := [] |}.

Section Node.

Context {T : Type} {tracker_ops : pure_pursuit.PathTracker T}.

(** [prius_msgs::PriusControl] is declared outside the sources: the value
    of a default-constructed command and the value returned by the static
    [PriusControl::getFailProofControlCommand()] are parameters. *)
Variable PriusControl_default : prius_msgs.PriusControl.
Variable getFailProofControlCommand : prius_msgs.PriusControl.

Local Abbreviation Node := (PriusControllerRos T).

Definition set_planReceived_ (b : bool) (s : Node) : Node :=
  {| dt_ := dt_ s;
     planReceived_ := b;
     currentlyExecutingPlan_ := currentlyExecutingPlan_ s;
     receivedStartTrackingCommand_ := receivedStartTrackingCommand_ s;
     publishTrackingStatus_ := publishTrackingStatus_ s;
     priusState_ := priusState_ s;
     pathTracker_ := pathTracker_ s |}.

Definition set_currentlyExecutingPlan_ (b : bool) (s : Node) : Node :=
  {| dt_ := dt_ s;
     planReceived_ := planReceived_ s;
     currentlyExecutingPlan_ := b;
     receivedStartTrackingCommand_ := receivedStartTrackingCommand_ s;
     publishTrackingStatus_ := publishTrackingStatus_ s;
     priusState_ := priusState_ s;
     pathTracker_ := pathTracker_ s |}.

Definition set_receivedStartTrackingCommand_ (b : bool) (s : Node) : Node :=
  {| dt_ := dt_ s;
     planReceived_ := planReceived_ s;
     currentlyExecutingPlan_ := currentlyExecutingPlan_ s;
     receivedStartTrackingCommand_ := b;
     publishTrackingStatus_ := publishTrackingStatus_ s;
     priusState_ := priusState_ s;
     pathTracker_ := pathTracker_ s |}.

Definition set_publishTrackingStatus_ (b : bool) (s : Node) : Node :=
  {| dt_ := dt_ s;
     planReceived_ := planReceived_ s;
     currentlyExecutingPlan_ := currentlyExecutingPlan_ s;
     receivedStartTrackingCommand_ := receivedStartTrackingCommand_ s;
     publishTrackingStatus_ := b;
     priusState_ := priusState_ s;
     pathTracker_ := pathTracker_ s |}.

Definition set_priusState_ (o : nav_msgs.Odometry) (s : Node) : Node :=
  {| dt_ := dt_ s;
     planReceived_ := planReceived_ s;
     currentlyExecutingPlan_ := currentlyExecutingPlan_ s;
     receivedStartTrackingCommand_ := receivedStartTrackingCommand_ s;
     publishTrackingStatus_ := publishTrackingStatus_ s;
     priusState_ := o;
     pathTracker_ := pathTracker_ s |}.

Definition set_pathTracker_ (t : T) (s : Node) : Node :=
  {| dt_ := dt_ s;
     planReceived_ := planReceived_ s;
     currentlyExecutingPlan_ := currentlyExecutingPlan_ s;
     receivedStartTrackingCommand_ := receivedStartTrackingCommand_ s;
     publishTrackingStatus_ := publishTrackingStatus_ s;
     priusState_ := priusState_ s;
     pathTracker_ := t |}.

(** *** The monad of member functions

    A member function takes the node, returns a value and the node after
    it, and the effects it emitted, oldest first. *)
Definition M (A : Type) : Type := Node -> A * Node * list Effect.

Definition ret {A : Type} (a : A) : M A := fun s => (a, s, []).

Definition bind {A B : Type} (m : M A) (k : A -> M B) : M B :=
  fun s =>
    let '(a, s1, t1) := m s in
    let '(b, s2, t2) := k a s1 in
    (b, s2, t1 ++ t2).

Definition get : M Node := fun s => (s, s, []).

Definition modify (f : Node -> Node) : M unit := fun s => (tt, f s, []).

Definition emit (e : Effect) : M unit := fun s => (tt, s, [e]).

Notation "x <- m ;; k" := (bind m (fun x => k))
  (at level 61, m at next level, right associativity).
Notation "m ;; k" := (bind m (fun _ => k))
  (at level 61, right associativity).

Definition value {A : Type} (r : A * Node * list Effect) : A := fst (fst r).
Definition node {A : Type} (r : A * Node * list Effect) : Node := snd (fst r).
Definition trace {A : Type} (r : A * Node * list Effect) : list Effect := snd r.

(** Calls through [pathTracker_]. *)
Definition pathTracker_advance : M bool :=
  fun s =>
    let (ok, t) := pure_pursuit.advance (pathTracker_ s) in
    (ok, set_pathTracker_ t s, [Call call_advance]).

Definition pathTracker_getSteeringAngle : M double :=
  fun s => (pure_pursuit.getSteeringAngle (pathTracker_ s), s, [Call call_getSteeringAngle]).

Definition pathTracker_getLongitudinalVelocity : M double :=
  fun s =>
    (pure_pursuit.getLongitudinalVelocity (pathTracker_ s), s,
     [Call call_getLongitudinalVelocity]).

Definition pathTracker_stopTracking : M unit :=
  fun s =>
    (tt, set_pathTracker_ (pure_pursuit.stopTracking (pathTracker_ s)) s,
     [Call call_stopTracking]).

(** *** Member functions, in the order of the source *)

Definition publishControl (ctrl : prius_msgs.PriusControl) : M unit :=
  emit (Publish ctrl).

Definition stopTracking : M unit :=
  emit (Log INFO "PriusControllerRos stopped tracking") ;;
  modify (set_currentlyExecutingPlan_ false) ;;
  modify (set_receivedStartTrackingCommand_ false) ;;
  modify (set_planReceived_ false) ;;
  pathTracker_stopTracking.

Definition advance : M unit :=
  let control := PriusControl_default in
  s <- get ;;
  let readyToTrack := planReceived_ s && receivedStartTrackingCommand_ s in
  if negb readyToTrack then
    publishControl getFailProofControlCommand
  else
    let controlCommand := PriusControl_default in
    ok <- pathTracker_advance ;;
    controlCommand <-
      (if negb ok then
         emit (Log ERROR "Failed to advance path tracker.") ;;
         let controlCommand := getFailProofControlCommand in
         stopTracking ;;
         modify (set_publishTrackingStatus_ true) ;;
         ret controlCommand
       else
         steering <- pathTracker_getSteeringAngle ;;
         velocity <- pathTracker_getLongitudinalVelocity ;;
         ret controlCommand) ;;
    let control := prius_msgs.set_gear_ prius_msgs.FORWARD control in
    let control := prius_msgs.set_steer_ 0.8%float control in
    let control := prius_msgs.set_throttle_ 0.02%float control in
    publishControl control.

Definition pathCallback (pathMsg : se2_navigation_msgs.Path) : M unit :=
  let path := pathMsg in
  s <- get ;;
  if currentlyExecutingPlan_ s then
    emit (Log WARN "PathFollowerRos:: Robot is tracking the previous plan. Rejecting this one.")
  else
    match se2_navigation_msgs.segment_ path with
    | [] => emit (Log WARN "Path follower received an empty plan!")
    | _ :: _ =>
        emit (LogSize INFO "PathFollowerRos subscriber received a plan, num segments: "
                (List.length (se2_navigation_msgs.segment_ path))) ;;
        modify (set_planReceived_ true)
    end.

Definition priusStateCallback (odometry : nav_msgs.Odometry) : M unit :=
  modify (set_priusState_ odometry).

Definition currentStateRequestService : M (bool * CurrentStateResponse) :=
  s <- get ;;
  let res :=
    {| res_pose := geometry_msgs.pose (nav_msgs.pose (priusState_ s));
       res_twist := geometry_msgs.twist (nav_msgs.twist (priusState_ s)) |} in
  ret (true, res).

Definition processStartTrackingCommand : M unit :=
  s <- get ;;
  if negb (planReceived_ s) then
    emit (Log WARN
      "PriusControllerRos:: Rejecting  the start command since the robot hasn't received a plan yet")
  else if currentlyExecutingPlan_ s then
    emit (Log WARN
      "PriusControllerRos:: Rejecting  the start command since the robot is already executing another plan")
  else
    emit (Log WARN "PriusControllerRos:: Start tracking requested") ;;
    modify (set_currentlyExecutingPlan_ true) ;;
    modify (set_receivedStartTrackingCommand_ true).

Definition processAbortTrackingCommand : M unit :=
  s <- get ;;
  if negb (currentlyExecutingPlan_ s) then
    emit (Log WARN "PriusControllerRos:: Not tracking any plans at the moment, cannot stop")
  else
    stopTracking.

Definition controllerCommandService (command : se2_navigation_msgs.Command) : M bool :=
  match command with
  | se2_navigation_msgs.StartTracking => processStartTrackingCommand
  | se2_navigation_msgs.StopTracking => processAbortTrackingCommand
  | se2_navigation_msgs.Unknown => emit (Log WARN "PATH FOLLOWER ROS: Unknown command")
  end ;;
  ret true.

(** *** The event loop *)

Definition dispatch (e : Event) : M Reply :=
  match e with
  | PathMsg pathMsg => pathCallback pathMsg ;; ret NoReply
  | OdometryMsg odometry => priusStateCallback odometry ;; ret NoReply
  | ControllerCommandRequest command =>
      ok <- controllerCommandService command ;; ret (ControllerCommandReply ok)
  | CurrentStateRequest =>
      r <- currentStateRequestService ;; ret (CurrentStateReply (fst r) (snd r))
  | Tick => advance ;; ret NoReply
  end.

Fixpoint exec (es : list Event) : M (list Reply) :=
  match es with
  | [] => ret []
  | e :: es' => r <- dispatch e ;; rs <- exec es' ;; ret (r :: rs)
  end.

(** Modelled from the spec: the header with the member initialisers is not
    among the sources; the spec creates the session in [Idle], so the three
    session flags start cleared.  [priusState_] holds a default-constructed
    message until the first odometry arrives. *)
Definition initial (dt : double) (tracker : T) : Node :=
  {| dt_ := dt;
     planReceived_ := false;
     currentlyExecutingPlan_ := false;
     receivedStartTrackingCommand_ := false;
     publishTrackingStatus_ := false;
     priusState_ := nav_msgs.Odometry_default;
     pathTracker_ := tracker |}.

(** ** The vocabulary of the specification *)

Inductive Status := Idle | PlanStaged | Tracking | Faulted.

Definition Status_eqb (a b : Status) : bool :=
  match a, b with
  | Idle, Idle | PlanStaged, PlanStaged | Tracking, Tracking | Faulted, Faulted => true
  | _, _ => false
  end.

(** The session status read off the flags: [Tracking] is [readyToTrack] of
    [advance]; otherwise a received plan is staged; otherwise the session
    is idle.  [Faulted] is never a resting state. *)
Definition status (s : Node) : Status :=
  if planReceived_ s && receivedStartTrackingCommand_ s then Tracking
  else if planReceived_ s then PlanStaged
  else Idle.

(** The three session flags agree with each other. *)
Definition flags_in_sync (s : Node) : Prop :=
  receivedStartTrackingCommand_ s = currentlyExecutingPlan_ s /\
  (currentlyExecutingPlan_ s = true -> planReceived_ s = true).

Definition flags_cleared (s : Node) : Prop :=
  planReceived_ s = false /\
  currentlyExecutingPlan_ s = false /\
  receivedStartTrackingCommand_ s = false.

(** The commands a trace publishes, oldest first. *)
Definition published (t : list Effect) : list prius_msgs.PriusControl :=
  flat_map (fun e => match e with Publish ctrl => [ctrl] | _ => [] end) t.

(** The calls a trace makes into the tracker, oldest first. *)
Definition tracker_calls (t : list Effect) : list TrackerCall :=
  flat_map (fun e => match e with Call c => [c] | _ => [] end) t.

(** How often a trace calls [stopTracking()] of the tracker. *)
Definition stopTracking_calls (t : list Effect) : nat :=
  List.length
    (filter (fun c => match c with call_stopTracking => true | _ => false end)
       (tracker_calls t)).

(** Whether a trace logs a warning.  [pathCallback] logs a warning on each
    of its two rejections and an INFO line when it accepts. *)
Definition warns (t : list Effect) : bool :=
  existsb (fun e => match e with Log WARN _ => true | _ => false end) t.

(** The command [advance] assembles in [control]. *)
Definition fixed_command : prius_msgs.PriusControl :=
  {| prius_msgs.gear_ := prius_msgs.FORWARD;
     prius_msgs.steer_ := 0.8%float;
     prius_msgs.throttle_ := 0.02%float |}.

(** The inputs the specification lists as rejected. *)
Definition rejected (s : Node) (e : Event) : bool :=
  match e with
  | PathMsg pathMsg =>
      match se2_navigation_msgs.segment_ pathMsg with
      | [] => true
      | _ :: _ => negb (Status_eqb (status s) Idle)
      end
  | ControllerCommandRequest se2_navigation_msgs.StartTracking =>
      negb (Status_eqb (status s) PlanStaged)
  | ControllerCommandRequest se2_navigation_msgs.StopTracking =>
      negb (Status_eqb (status s) Tracking)
  | ControllerCommandRequest se2_navigation_msgs.Unknown => true
  | OdometryMsg _ | CurrentStateRequest | Tick => false
  end.

(** The odometry last delivered by a sequence of events, [o] if none. *)
Definition last_odometry (es : list Event) (o : nav_msgs.Odometry) : nav_msgs.Odometry :=
  fold_left (fun acc e => match e with OdometryMsg odometry => odometry | _ => acc end) es o.

Definition response_of (o : nav_msgs.Odometry) : CurrentStateResponse :=
  {| res_pose := geometry_msgs.pose (nav_msgs.pose o);
     res_twist := geometry_msgs.twist (nav_msgs.twist o) |}.

(** What a client of the state service receives: the response when the
    service call returns true, nothing when it returns false. *)
Definition stateQuery (s : Node) : option CurrentStateResponse :=
  let r := value (currentStateRequestService s) in
  if fst r then Some (snd r) else None.

(** *** Vocabulary for event sequences *)

Definition is_Tick (e : Event) : bool :=
  match e with Tick => true | _ => false end.

(** The number of ticks in a sequence of events. *)
Definition ticks (es : list Event) : nat := List.length (filter is_Tick es).

(** A plan message that passes the emptiness guard of [pathCallback]. *)
Definition brings_plan (e : Event) : bool :=
  match e with
  | PathMsg pathMsg =>
      match se2_navigation_msgs.segment_ pathMsg with [] => false | _ :: _ => true end
  | _ => false
  end.

Definition is_start (e : Event) : bool :=
  match e with
  | ControllerCommandRequest se2_navigation_msgs.StartTracking => true
  | _ => false
  end.

Definition is_stop (e : Event) : bool :=
  match e with
  | ControllerCommandRequest se2_navigation_msgs.StopTracking => true
  | _ => false
  end.

(** A tick at which the session is tracking and the tracker fails. *)
Definition failed_tick (e : Event) (s : Node) : bool :=
  is_Tick e
  && (planReceived_ s && receivedStartTrackingCommand_ s)
  && negb (fst (pure_pursuit.advance (pathTracker_ s))).

(** The status table the three flags implement; [advanced] is what the
    tracker's [advance()] answers, looked at only by a tick in [Tracking]. *)
Definition next_status (st : Status) (e : Event) (advanced : bool) : Status :=
  match e, st with
  | PathMsg _, Idle => if brings_plan e then PlanStaged else Idle
  | ControllerCommandRequest se2_navigation_msgs.StartTracking, PlanStaged => Tracking
  | ControllerCommandRequest se2_navigation_msgs.StopTracking, Tracking => Idle
  | Tick, Tracking => if advanced then Tracking else Idle
  | _, _ => st
  end.

(** The tracker answers true to its next [n] calls of [advance()]. *)
Fixpoint succeeds (n : nat) (t : T) : Prop :=
  match n with
  | O => True
  | S n' =>
      fst (pure_pursuit.advance t) = true /\ succeeds n' (snd (pure_pursuit.advance t))
  end.

(** The reply each kind of event gets. *)
Definition reply_matches (e : Event) (r : Reply) : Prop :=
  match e with
  | ControllerCommandRequest _ => r = ControllerCommandReply true
  | CurrentStateRequest => exists res, r = CurrentStateReply true res
  | PathMsg _ | OdometryMsg _ | Tick => r = NoReply
  end.

(** ** Properties *)

Ltac unfold_node :=
  cbv [advance pathCallback priusStateCallback currentStateRequestService
       controllerCommandService processStartTrackingCommand
       processAbortTrackingCommand stopTracking publishControl
       pathTracker_advance pathTracker_stopTracking
       pathTracker_getSteeringAngle pathTracker_getLongitudinalVelocity
       dispatch bind ret get modify emit value node trace
       status flags_in_sync flags_cleared stateQuery] in *.

Lemma status_Tracking (s : Node) :
  status s = Tracking <->
  planReceived_ s = true /\ receivedStartTrackingCommand_ s = true.
Proof.
  unfold status.
  destruct (planReceived_ s), (receivedStartTrackingCommand_ s); simpl;
    split; intros H; try discriminate; try (destruct H; discriminate); auto.
Qed.

Lemma status_Idle (s : Node) : status s = Idle <-> planReceived_ s = false.
Proof.
  unfold status.
  destruct (planReceived_ s), (receivedStartTrackingCommand_ s); simpl;
    split; intros H; try discriminate; auto.
Qed.

Lemma status_PlanStaged (s : Node) :
  status s = PlanStaged <->
  planReceived_ s = true /\ receivedStartTrackingCommand_ s = false.
Proof.
  unfold status.
  destruct (planReceived_ s), (receivedStartTrackingCommand_ s); simpl;
    split; intros H; try discriminate; try (destruct H; discriminate); auto.
Qed.

(** C1.  Whatever events came before, a tick at which the session status is
    not [Tracking] publishes exactly the fail-safe command, and does
    nothing else: the node is unchanged and no other effect is emitted. *)
Theorem advance_not_tracking_publishes_fail_safe (es : list Event) (s0 : Node) :
  let s := node (exec es s0) in
  status s <> Tracking ->
  advance s = (tt, s, [Publish getFailProofControlCommand]).
Proof.
  intros s H. unfold advance, bind, get, publishControl, emit.
  unfold status in H.
  destruct (planReceived_ s && receivedStartTrackingCommand_ s); simpl.
  - exfalso; apply H; reflexivity.
  - reflexivity.
Qed.

Lemma steer_of_fixed_command_not_neutral :
  prius_msgs.steer_ fixed_command <> 0%float.
Proof.
  intro H.
  assert (E : PrimFloat.eqb (prius_msgs.steer_ fixed_command) 0 = PrimFloat.eqb 0 0)
    by (rewrite H; reflexivity).
  vm_compute in E. discriminate E.
Qed.

(** C2.  A tick in [Tracking] at which the tracker fails to advance clears
    the three session flags (the status is [Idle]) and calls the tracker's
    [stopTracking()] once, but the command it publishes is the hard-coded
    [control], {FORWARD, 0.8, 0.02}: the fail-safe command is assigned to
    [controlCommand], which is never published.  The published command
    differs from every fail-safe command with neutral steering. *)
Theorem advance_tracker_failure_publishes_fixed_command (s : Node) :
  status s = Tracking ->
  fst (pure_pursuit.advance (pathTracker_ s)) = false ->
  let r := advance s in
  flags_cleared (node r) /\
  status (node r) = Idle /\
  stopTracking_calls (trace r) = 1 /\
  published (trace r) = [fixed_command] /\
  (prius_msgs.steer_ getFailProofControlCommand = 0%float ->
   published (trace r) <> [getFailProofControlCommand]).
Proof.
  intros Hst Hadv r.
  apply status_Tracking in Hst. destruct Hst as [Hp Hr].
  assert (Hpub : published (trace r) = [fixed_command]).
  { subst r. unfold advance, bind, get, pathTracker_advance.
    rewrite Hp, Hr. simpl.
    destruct (pure_pursuit.advance (pathTracker_ s)) as [ok t].
    simpl in Hadv. subst ok. reflexivity. }
  repeat split; try assumption;
    try (subst r; unfold advance, bind, get, pathTracker_advance;
         rewrite Hp, Hr; simpl;
         destruct (pure_pursuit.advance (pathTracker_ s)) as [ok t];
         simpl in Hadv; subst ok; reflexivity).
  intros Hsteer Heq. rewrite Hpub in Heq.
  injection Heq as Heq. apply steer_of_fixed_command_not_neutral.
  rewrite Heq. exact Hsteer.
Qed.

(** C6.  A tick in [Tracking] at which the tracker advances publishes the
    constant {FORWARD, 0.8, 0.02}, whatever steering angle and velocity the
    tracker reports; the session flags stay as they are. *)
Theorem advance_tracker_success_publishes_fixed_command (s : Node) :
  status s = Tracking ->
  fst (pure_pursuit.advance (pathTracker_ s)) = true ->
  let r := advance s in
  published (trace r) =
    [{| prius_msgs.gear_ := prius_msgs.FORWARD;
        prius_msgs.steer_ := 0.8%float;
        prius_msgs.throttle_ := 0.02%float |}] /\
  node r = set_pathTracker_ (snd (pure_pursuit.advance (pathTracker_ s))) s.
Proof.
  intros Hst Hadv r.
  apply status_Tracking in Hst. destruct Hst as [Hp Hr].
  subst r. unfold advance, bind, get, pathTracker_advance.
  rewrite Hp, Hr. simpl.
  destruct (pure_pursuit.advance (pathTracker_ s)) as [ok t].
  simpl in Hadv. subst ok. repeat split.
Qed.

(** C5.  In [Tracking], a StopTracking request clears the three session
    flags (status [Idle], no plan received) and calls the tracker's
    [stopTracking()] exactly once; the service returns true. *)
Theorem stop_command_resets_session (s : Node) :
  flags_in_sync s ->
  status s = Tracking ->
  let r := controllerCommandService se2_navigation_msgs.StopTracking s in
  value r = true /\
  flags_cleared (node r) /\
  status (node r) = Idle /\
  stopTracking_calls (trace r) = 1.
Proof.
  intros [Hsync _] Hst r.
  apply status_Tracking in Hst. destruct Hst as [Hp Hr].
  rewrite Hr in Hsync. symmetry in Hsync.
  subst r. unfold controllerCommandService, processAbortTrackingCommand, bind, get.
  rewrite Hsync. simpl. repeat split.
Qed.

(** *** Frame lemmas of the event loop *)

Lemma exec_cons_node (e : Event) (es : list Event) (s : Node) :
  node (exec (e :: es) s) = node (exec es (node (dispatch e s))).
Proof.
  simpl. unfold bind, node.
  destruct (dispatch e s) as [[r s1] t1]. simpl.
  destruct (exec es s1) as [[rs s2] t2]. reflexivity.
Qed.

Lemma node_bind_ret {A B : Type} (m : M A) (f : A -> B) (s : Node) :
  node (bind m (fun a => ret (f a)) s) = node (m s).
Proof.
  unfold bind, ret, node. destruct (m s) as [[a s1] t1]. reflexivity.
Qed.

Lemma dispatch_priusState (e : Event) (s : Node) :
  priusState_ (node (dispatch e s)) =
  match e with OdometryMsg odometry => odometry | _ => priusState_ s end.
Proof.
  destruct e as [pathMsg | odometry | [ | | ] | | ]; unfold_node.
  - destruct (currentlyExecutingPlan_ s); simpl; [reflexivity |].
    destruct (se2_navigation_msgs.segment_ pathMsg); reflexivity.
  - reflexivity.
  - destruct (planReceived_ s); simpl; [| reflexivity].
    destruct (currentlyExecutingPlan_ s); reflexivity.
  - destruct (currentlyExecutingPlan_ s); reflexivity.
  - reflexivity.
  - reflexivity.
  - destruct (planReceived_ s && receivedStartTrackingCommand_ s); simpl; [| reflexivity].
    destruct (pure_pursuit.advance (pathTracker_ s)) as [[ | ] t]; reflexivity.
Qed.

Lemma exec_priusState (es : list Event) :
  forall s : Node, priusState_ (node (exec es s)) = last_odometry es (priusState_ s).
Proof.
  induction es as [| e es IH]; intros s.
  - reflexivity.
  - rewrite exec_cons_node, IH, dispatch_priusState.
    destruct e; reflexivity.
Qed.

Lemma dispatch_flags_in_sync (e : Event) (s : Node) :
  flags_in_sync s -> flags_in_sync (node (dispatch e s)).
Proof.
  intros [Hrs Hpl].
  destruct e as [pathMsg | odometry | [ | | ] | | ]; unfold_node.
  - destruct (currentlyExecutingPlan_ s) eqn:E; simpl; [rewrite E; auto |].
    destruct (se2_navigation_msgs.segment_ pathMsg); simpl; rewrite ?E; auto.
  - simpl; auto.
  - destruct (planReceived_ s) eqn:P; simpl; [| rewrite P; auto].
    destruct (currentlyExecutingPlan_ s) eqn:E; simpl; rewrite ?E, ?P; auto.
  - destruct (currentlyExecutingPlan_ s) eqn:E; simpl; rewrite ?E; auto.
  - simpl; auto.
  - simpl; auto.
  - destruct (planReceived_ s && receivedStartTrackingCommand_ s); simpl; [| auto].
    destruct (pure_pursuit.advance (pathTracker_ s)) as [[ | ] t]; simpl; auto.
Qed.

Lemma exec_flags_in_sync (es : list Event) :
  forall s : Node, flags_in_sync s -> flags_in_sync (node (exec es s)).
Proof.
  induction es as [| e es IH]; intros s H.
  - exact H.
  - rewrite exec_cons_node. apply IH, dispatch_flags_in_sync, H.
Qed.

(** C9.  In every state reached from the initial state by plans, commands,
    ticks, odometry and state queries, [receivedStartTrackingCommand_]
    equals [currentlyExecutingPlan_], and [currentlyExecutingPlan_]
    implies [planReceived_]. *)
Theorem reachable_flags_in_sync (dt : double) (tracker : T) (es : list Event) :
  let s := node (exec es (initial dt tracker)) in
  receivedStartTrackingCommand_ s = currentlyExecutingPlan_ s /\
  (currentlyExecutingPlan_ s = true -> planReceived_ s = true).
Proof.
  intros s. apply exec_flags_in_sync.
  split; [reflexivity | discriminate].
Qed.

(** C7.  An input the specification lists as rejected (an empty plan, a
    plan while the status is not [Idle], StartTracking while the status is
    not [PlanStaged], StopTracking while it is not [Tracking], an unknown
    command) leaves the whole node as it was; nothing is published and the
    tracker is not called. *)
Theorem rejected_input_leaves_node_unchanged (s : Node) (e : Event) :
  flags_in_sync s ->
  rejected s e = true ->
  let r := dispatch e s in
  node r = s /\ published (trace r) = [] /\ tracker_calls (trace r) = [].
Proof.
  intros [Hrs Hpl] Hrej r. subst r.
  destruct s as [dt pr ce rs pts ps tr]. simpl in *. subst rs.
  destruct e as [pathMsg | odometry | [ | | ] | | ]; unfold_node; simpl in *;
    try discriminate.
  - destruct ce; simpl; [repeat split |].
    destruct (se2_navigation_msgs.segment_ pathMsg); simpl; [repeat split |].
    destruct pr; simpl in *; [repeat split | discriminate].
  - destruct pr, ce; simpl in *; try discriminate; repeat split.
  - destruct pr, ce; simpl in *; try discriminate;
      try (specialize (Hpl eq_refl); discriminate); repeat split.
  - repeat split.
Qed.

(** C10.  An odometry message overwrites [priusState_] and nothing else: the
    flags, the status and the tracker are as before and nothing is emitted.
    A plan, a command and a tick leave [priusState_] as it was.  A state
    query leaves the whole node as it was. *)
Theorem telemetry_and_session_are_separate
    (s : Node) (odometry : nav_msgs.Odometry)
    (pathMsg : se2_navigation_msgs.Path) (command : se2_navigation_msgs.Command) :
  (let r := priusStateCallback odometry s in
   priusState_ (node r) = odometry /\
   planReceived_ (node r) = planReceived_ s /\
   currentlyExecutingPlan_ (node r) = currentlyExecutingPlan_ s /\
   receivedStartTrackingCommand_ (node r) = receivedStartTrackingCommand_ s /\
   publishTrackingStatus_ (node r) = publishTrackingStatus_ s /\
   status (node r) = status s /\
   pathTracker_ (node r) = pathTracker_ s /\
   dt_ (node r) = dt_ s /\
   trace r = []) /\
  priusState_ (node (pathCallback pathMsg s)) = priusState_ s /\
  priusState_ (node (controllerCommandService command s)) = priusState_ s /\
  priusState_ (node (advance s)) = priusState_ s /\
  node (currentStateRequestService s) = s /\
  trace (currentStateRequestService s) = [].
Proof.
  split; [repeat split |].
  split.
  { rewrite <- (dispatch_priusState (PathMsg pathMsg) s).
    simpl. now rewrite node_bind_ret. }
  split.
  { rewrite <- (dispatch_priusState (ControllerCommandRequest command) s).
    simpl. now rewrite node_bind_ret. }
  split.
  { rewrite <- (dispatch_priusState Tick s).
    simpl. now rewrite node_bind_ret. }
  split; reflexivity.
Qed.

(** C8, as the code has it.  After any sequence of events, whatever the
    session status, the state service returns true with the pose and twist
    of the odometry message delivered last; when none has been delivered
    it still returns true, with the pose and twist of the odometry the node
    started with (a default-constructed message in the initial state), not
    an empty answer. *)
Theorem state_query_returns_last_odometry
    (dt : double) (tracker : T) (es : list Event) (s0 : Node) :
  (let s := node (exec es s0) in
   currentStateRequestService s =
     ((true, response_of (last_odometry es (priusState_ s0))), s, [])) /\
  (let s := node (exec es (initial dt tracker)) in
   stateQuery s = Some (response_of (last_odometry es nav_msgs.Odometry_default))).
Proof.
  split; intros s; subst s.
  - unfold currentStateRequestService, bind, get, ret. simpl.
    rewrite <- exec_priusState. reflexivity.
  - pose proof (exec_priusState es (initial dt tracker)) as H.
    change (priusState_ (initial dt tracker)) with nav_msgs.Odometry_default in H.
    rewrite <- H. reflexivity.
Qed.

(** C3, as the code has it.  While a plan is being executed
    ([currentlyExecutingPlan_] set) every new plan is rejected with a
    warning and the node is unchanged; in particular, after plan P1 was
    accepted in [Idle] and tracking was started, plan P2 is rejected.
    While P1 is only staged, a non-empty P2 passes both guards: it is
    logged as received, not rejected, and [planReceived_] stays set. *)
Theorem pathCallback_rejects_only_while_executing
    (s : Node) (P1 P2 : se2_navigation_msgs.Path) :
  (currentlyExecutingPlan_ s = true ->
   pathCallback P2 s =
     (tt, s,
      [Log WARN "PathFollowerRos:: Robot is tracking the previous plan. Rejecting this one."])) /\
  (flags_in_sync s -> status s = Idle -> se2_navigation_msgs.segment_ P1 <> [] ->
   let s2 :=
     node (exec [PathMsg P1; ControllerCommandRequest se2_navigation_msgs.StartTracking] s) in
   status s2 = Tracking /\
   pathCallback P2 s2 =
     (tt, s2,
      [Log WARN "PathFollowerRos:: Robot is tracking the previous plan. Rejecting this one."])) /\
  (flags_in_sync s -> status s = PlanStaged -> se2_navigation_msgs.segment_ P2 <> [] ->
   node (pathCallback P2 s) = s /\
   warns (trace (pathCallback P2 s)) = false /\
   trace (pathCallback P2 s) =
     [LogSize INFO "PathFollowerRos subscriber received a plan, num segments: "
        (List.length (se2_navigation_msgs.segment_ P2))]).
Proof.
  split; [| split].
  - intros H. unfold pathCallback, bind, get. rewrite H. reflexivity.
  - intros [Hrs Hpl] Hst Hne.
    apply status_Idle in Hst.
    destruct s as [dt pr ce rs pts ps tr]. simpl in *. subst rs pr.
    destruct ce; [specialize (Hpl eq_refl); discriminate |].
    unfold_node. simpl.
    destruct (se2_navigation_msgs.segment_ P1); [contradiction |].
    simpl. split; reflexivity.
  - intros [Hrs Hpl] Hst Hne.
    apply status_PlanStaged in Hst. destruct Hst as [Hp Hr].
    destruct s as [dt pr ce rs pts ps tr]. simpl in *. subst rs pr ce.
    unfold_node. simpl.
    destruct (se2_navigation_msgs.segment_ P2); [contradiction |].
    simpl. repeat split.
Qed.

(** C4, as the code has it.  A non-empty plan arriving in [Idle] is logged
    as received and sets [planReceived_]: the status becomes [PlanStaged]
    and no other member changes.  The plan itself is not kept: the node
    after the call is the same for every non-empty plan. *)
Theorem pathCallback_stages_without_storing
    (s : Node) (path path' : se2_navigation_msgs.Path) :
  flags_in_sync s ->
  status s = Idle ->
  se2_navigation_msgs.segment_ path <> [] ->
  se2_navigation_msgs.segment_ path' <> [] ->
  pathCallback path s =
    (tt, set_planReceived_ true s,
     [LogSize INFO "PathFollowerRos subscriber received a plan, num segments: "
        (List.length (se2_navigation_msgs.segment_ path))]) /\
  status (node (pathCallback path s)) = PlanStaged /\
  node (pathCallback path' s) = node (pathCallback path s).
Proof.
  intros [Hrs Hpl] Hst Hne Hne'.
  apply status_Idle in Hst.
  destruct s as [dt pr ce rs pts ps tr]. simpl in *. subst rs pr.
  destruct ce; [specialize (Hpl eq_refl); discriminate |].
  unfold_node. simpl.
  destruct (se2_navigation_msgs.segment_ path); [contradiction |].
  destruct (se2_navigation_msgs.segment_ path'); [contradiction |].
  simpl. repeat split.
Qed.

(** ** Further properties of the event loop *)

Lemma exec_cons_trace (e : Event) (es : list Event) (s : Node) :
  trace (exec (e :: es) s) =
  trace (dispatch e s) ++ trace (exec es (node (dispatch e s))).
Proof.
  simpl. unfold bind, trace, node.
  destruct (dispatch e s) as [[r s1] t1]. simpl.
  destruct (exec es s1) as [[rs s2] t2]. simpl.
  now rewrite app_nil_r.
Qed.

Lemma published_app (t1 t2 : list Effect) :
  published (t1 ++ t2) = published t1 ++ published t2.
Proof. apply flat_map_app. Qed.

Lemma tracker_calls_app (t1 t2 : list Effect) :
  tracker_calls (t1 ++ t2) = tracker_calls t1 ++ tracker_calls t2.
Proof. apply flat_map_app. Qed.

(** What one event publishes. *)
Lemma dispatch_published (e : Event) (s : Node) :
  published (trace (dispatch e s)) =
  if is_Tick e then
    [if planReceived_ s && receivedStartTrackingCommand_ s
     then fixed_command else getFailProofControlCommand]
  else [].
Proof.
  destruct e as [pathMsg | odometry | [ | | ] | | ]; unfold_node; simpl.
  - destruct (currentlyExecutingPlan_ s); simpl; [reflexivity |].
    destruct (se2_navigation_msgs.segment_ pathMsg); reflexivity.
  - reflexivity.
  - destruct (planReceived_ s); simpl; [| reflexivity].
    destruct (currentlyExecutingPlan_ s); reflexivity.
  - destruct (currentlyExecutingPlan_ s); reflexivity.
  - reflexivity.
  - reflexivity.
  - destruct (planReceived_ s && receivedStartTrackingCommand_ s); simpl; [| reflexivity].
    destruct (pure_pursuit.advance (pathTracker_ s)) as [[ | ] t]; reflexivity.
Qed.

(** X1.  Over any sequence of events from any node, exactly one command is
    published per tick and none by any other event: the number of
    published commands is the number of ticks. *)
Theorem one_command_per_tick (es : list Event) (s : Node) :
  List.length (published (trace (exec es s))) = ticks es.
Proof.
  revert s. induction es as [| e es IH]; intros s.
  - reflexivity.
  - rewrite exec_cons_trace, published_app, length_app, IH, dispatch_published.
    unfold ticks. simpl. destruct (is_Tick e); reflexivity.
Qed.

(** X2.  Whatever the events and whatever the tracker reports, every
    command the node publishes is the fail-safe command or the hard-coded
    {FORWARD, 0.8, 0.02}; no published command depends on the tracker's
    steering angle or velocity. *)
Theorem published_commands_are_fail_safe_or_fixed (es : list Event) (s : Node) :
  Forall (fun ctrl => ctrl = getFailProofControlCommand \/ ctrl = fixed_command)
    (published (trace (exec es s))).
Proof.
  revert s. induction es as [| e es IH]; intros s.
  - constructor.
  - rewrite exec_cons_trace, published_app, dispatch_published.
    apply Forall_app. split; [| apply IH].
    destruct (is_Tick e); [| constructor].
    constructor; [| constructor].
    destruct (planReceived_ s && receivedStartTrackingCommand_ s); auto.
Qed.

(** X3.  The calls a tick makes into the tracker: none when the session is
    not tracking; [advance()] and then both getters when it succeeds;
    [advance()] and then [stopTracking()], without reading the getters,
    when it fails. *)
Theorem tick_tracker_protocol (s : Node) :
  tracker_calls (trace (advance s)) =
  if planReceived_ s && receivedStartTrackingCommand_ s then
    if fst (pure_pursuit.advance (pathTracker_ s))
    then [call_advance; call_getSteeringAngle; call_getLongitudinalVelocity]
    else [call_advance; call_stopTracking]
  else [].
Proof.
  unfold_node.
  destruct (planReceived_ s && receivedStartTrackingCommand_ s); simpl; [| reflexivity].
  destruct (pure_pursuit.advance (pathTracker_ s)) as [[ | ] t]; reflexivity.
Qed.

(** X4.  With the flags in sync, an event makes the node call the
    tracker's [stopTracking()] exactly when it ends tracking (the status is
    [Tracking] before the event and not after it), and then once; no other
    event calls it. *)
Theorem stopTracking_called_iff_tracking_ends (e : Event) (s : Node) :
  flags_in_sync s ->
  stopTracking_calls (trace (dispatch e s)) =
  if Status_eqb (status s) Tracking
     && negb (Status_eqb (status (node (dispatch e s))) Tracking)
  then 1 else 0.
Proof.
  intros [Hrs Hpl].
  destruct s as [dt pr ce rs pts ps tr]. simpl in *. subst rs.
  destruct pr, ce; try (specialize (Hpl eq_refl); discriminate);
    destruct e as [pathMsg | odometry | [ | | ] | | ]; unfold_node; simpl;
    try reflexivity;
    try (destruct (se2_navigation_msgs.segment_ pathMsg); reflexivity).
  destruct (pure_pursuit.advance tr) as [[ | ] t]; reflexivity.
Qed.

(** X5.  With the flags in sync, every event moves the status as the table
    [next_status] says: a non-empty plan stages only from [Idle],
    StartTracking starts only from [PlanStaged], StopTracking and a failed
    tick lead from [Tracking] to [Idle], and everything else leaves the
    status as it is. *)
Theorem status_follows_table (e : Event) (s : Node) :
  flags_in_sync s ->
  status (node (dispatch e s)) =
  next_status (status s) e (fst (pure_pursuit.advance (pathTracker_ s))).
Proof.
  intros [Hrs Hpl].
  destruct s as [dt pr ce rs pts ps tr]. simpl in *. subst rs.
  destruct pr, ce; try (specialize (Hpl eq_refl); discriminate);
    destruct e as [pathMsg | odometry | [ | | ] | | ]; unfold_node; simpl;
    try reflexivity;
    try (destruct (se2_navigation_msgs.segment_ pathMsg); reflexivity).
  destruct (pure_pursuit.advance tr) as [[ | ] t]; reflexivity.
Qed.

(** *** Without a plan, or without a start command *)

Lemma dispatch_without_plan (e : Event) (s : Node) :
  planReceived_ s = false ->
  brings_plan e = false ->
  planReceived_ (node (dispatch e s)) = false.
Proof.
  intros Hp He.
  destruct e as [pathMsg | odometry | [ | | ] | | ]; unfold_node; simpl in *;
    rewrite ?Hp; simpl; try assumption;
    destruct (currentlyExecutingPlan_ s); simpl; try assumption; try reflexivity.
  destruct (se2_navigation_msgs.segment_ pathMsg); [assumption | discriminate].
Qed.

Lemma exec_without_plan (es : list Event) :
  forall s : Node,
    planReceived_ s = false ->
    forallb (fun e => negb (brings_plan e)) es = true ->
    planReceived_ (node (exec es s)) = false /\
    published (trace (exec es s)) = repeat getFailProofControlCommand (ticks es).
Proof.
  induction es as [| e es IH]; intros s Hp Hes.
  - split; [exact Hp | reflexivity].
  - simpl in Hes. apply andb_true_iff in Hes. destruct Hes as [He Hes].
    apply negb_true_iff in He.
    destruct (IH (node (dispatch e s)) (@dispatch_without_plan e s Hp He) Hes) as [IH1 IH2].
    split.
    + rewrite exec_cons_node. exact IH1.
    + rewrite exec_cons_trace, published_app, IH2, dispatch_published, Hp.
      unfold ticks. simpl. destruct (is_Tick e); reflexivity.
Qed.

Lemma dispatch_without_start (e : Event) (s : Node) :
  receivedStartTrackingCommand_ s = false ->
  is_start e = false ->
  receivedStartTrackingCommand_ (node (dispatch e s)) = false.
Proof.
  intros Hr He.
  destruct e as [pathMsg | odometry | [ | | ] | | ]; unfold_node; simpl in *;
    try discriminate; try assumption;
    rewrite ?Hr, ?andb_false_r; simpl; try assumption;
    destruct (currentlyExecutingPlan_ s); simpl; try assumption; try reflexivity.
  destruct (se2_navigation_msgs.segment_ pathMsg); assumption.
Qed.

(** X6.  From a node that has no plan ([planReceived_] clear), a sequence
    of events that brings no non-empty plan never starts tracking, whatever
    commands it contains: [planReceived_] stays clear and every tick
    publishes the fail-safe command. *)
Theorem no_plan_no_tracking (es : list Event) (s : Node) :
  planReceived_ s = false ->
  forallb (fun e => negb (brings_plan e)) es = true ->
  planReceived_ (node (exec es s)) = false /\
  published (trace (exec es s)) = repeat getFailProofControlCommand (ticks es).
Proof. apply exec_without_plan. Qed.

(** X7.  From a node that has not been started
    ([receivedStartTrackingCommand_] clear), a sequence of events without a
    StartTracking command never starts tracking, whatever plans it brings:
    the flag stays clear and every tick publishes the fail-safe command. *)
Theorem no_start_no_tracking (es : list Event) (s : Node) :
  receivedStartTrackingCommand_ s = false ->
  forallb (fun e => negb (is_start e)) es = true ->
  receivedStartTrackingCommand_ (node (exec es s)) = false /\
  published (trace (exec es s)) = repeat getFailProofControlCommand (ticks es).
Proof.
  revert s. induction es as [| e es IH]; intros s Hr Hes.
  - split; [exact Hr | reflexivity].
  - simpl in Hes. apply andb_true_iff in Hes. destruct Hes as [He Hes].
    apply negb_true_iff in He.
    destruct (IH (node (dispatch e s)) (@dispatch_without_start e s Hr He) Hes) as [IH1 IH2].
    split.
    + rewrite exec_cons_node. exact IH1.
    + rewrite exec_cons_trace, published_app, IH2, dispatch_published, Hr, andb_false_r.
      unfold ticks. simpl. destruct (is_Tick e); reflexivity.
Qed.

(** X8.  StopTracking discards the plan: after a stop in [Tracking], every
    tick publishes the fail-safe command until a new non-empty plan
    arrives; a StartTracking alone does not resume the old plan. *)
Theorem stop_discards_plan (es : list Event) (s : Node) :
  flags_in_sync s ->
  status s = Tracking ->
  forallb (fun e => negb (brings_plan e)) es = true ->
  let s' := node (controllerCommandService se2_navigation_msgs.StopTracking s) in
  status (node (exec es s')) = Idle /\
  published (trace (exec es s')) = repeat getFailProofControlCommand (ticks es).
Proof.
  intros [Hrs Hpl] Hst Hes s'.
  apply status_Tracking in Hst. destruct Hst as [Hp Hr].
  rewrite Hr in Hrs. symmetry in Hrs.
  assert (Hp' : planReceived_ s' = false).
  { subst s'. unfold_node. rewrite Hrs. reflexivity. }
  destruct (@exec_without_plan es s' Hp' Hes) as [H1 H2].
  split; [apply status_Idle; exact H1 | exact H2].
Qed.

(** X9.  After a tick in [Tracking] at which the tracker failed, every
    later tick publishes the fail-safe command until a new non-empty plan
    arrives. *)
Theorem tracker_failure_ends_tracking (es : list Event) (s : Node) :
  status s = Tracking ->
  fst (pure_pursuit.advance (pathTracker_ s)) = false ->
  forallb (fun e => negb (brings_plan e)) es = true ->
  let s' := node (advance s) in
  status (node (exec es s')) = Idle /\
  published (trace (exec es s')) = repeat getFailProofControlCommand (ticks es).
Proof.
  intros Hst Hadv Hes s'.
  apply status_Tracking in Hst. destruct Hst as [Hp Hr].
  assert (Hp' : planReceived_ s' = false).
  { subst s'. unfold_node. rewrite Hp, Hr. simpl.
    destruct (pure_pursuit.advance (pathTracker_ s)) as [ok t].
    simpl in Hadv. subst ok. reflexivity. }
  destruct (@exec_without_plan es s' Hp' Hes) as [H1 H2].
  split; [apply status_Idle; exact H1 | exact H2].
Qed.

(** *** The remaining members *)

Lemma dispatch_publishTrackingStatus (e : Event) (s : Node) :
  publishTrackingStatus_ (node (dispatch e s)) =
  publishTrackingStatus_ s || failed_tick e s.
Proof.
  unfold failed_tick.
  destruct e as [pathMsg | odometry | [ | | ] | | ]; unfold_node; simpl;
    rewrite ?orb_false_r; try reflexivity.
  - destruct (currentlyExecutingPlan_ s); simpl; [reflexivity |].
    destruct (se2_navigation_msgs.segment_ pathMsg); reflexivity.
  - destruct (planReceived_ s); simpl; [| reflexivity].
    destruct (currentlyExecutingPlan_ s); reflexivity.
  - destruct (currentlyExecutingPlan_ s); reflexivity.
  - destruct (planReceived_ s && receivedStartTrackingCommand_ s); simpl;
      [| now rewrite orb_false_r].
    destruct (pure_pursuit.advance (pathTracker_ s)) as [[ | ] t]; simpl;
      [now rewrite orb_false_r | now rewrite orb_true_r].
Qed.

(** X10.  [publishTrackingStatus_] is raised by a tick in [Tracking] at
    which the tracker fails and by nothing else, and no member function
    lowers it: once set it stays set through every sequence of events. *)
Theorem publishTrackingStatus_raised_by_failed_tick_only
    (e : Event) (es : list Event) (s : Node) :
  publishTrackingStatus_ (node (dispatch e s)) =
    (publishTrackingStatus_ s || failed_tick e s) /\
  (publishTrackingStatus_ s = true ->
   publishTrackingStatus_ (node (exec es s)) = true).
Proof.
  split; [apply dispatch_publishTrackingStatus |].
  revert s. induction es as [| e' es IH]; intros s H.
  - exact H.
  - rewrite exec_cons_node. apply IH.
    rewrite dispatch_publishTrackingStatus, H. reflexivity.
Qed.

(** X11.  Only ticks and StopTracking commands reach the tracker: a
    sequence of plans, odometry messages, state queries and other commands
    makes no call into the tracker and leaves its state as it was.  In
    particular an accepted plan is not handed to the tracker. *)
Theorem tracker_reached_only_by_tick_and_stop (es : list Event) (s : Node) :
  forallb (fun e => negb (is_Tick e || is_stop e)) es = true ->
  tracker_calls (trace (exec es s)) = [] /\
  pathTracker_ (node (exec es s)) = pathTracker_ s.
Proof.
  revert s. induction es as [| e es IH]; intros s Hes.
  - split; reflexivity.
  - simpl in Hes. apply andb_true_iff in Hes. destruct Hes as [He Hes].
    apply negb_true_iff in He.
    destruct (IH (node (dispatch e s)) Hes) as [IH1 IH2].
    rewrite exec_cons_trace, tracker_calls_app, exec_cons_node, IH1, IH2, app_nil_r.
    destruct e as [pathMsg | odometry | [ | | ] | | ]; try discriminate;
      unfold_node; simpl.
    + destruct (currentlyExecutingPlan_ s); simpl; [split; reflexivity |].
      destruct (se2_navigation_msgs.segment_ pathMsg); split; reflexivity.
    + split; reflexivity.
    + destruct (planReceived_ s); simpl; [| split; reflexivity].
      destruct (currentlyExecutingPlan_ s); split; reflexivity.
    + split; reflexivity.
    + split; reflexivity.
Qed.

Lemma exec_cons_value (e : Event) (es : list Event) (s : Node) :
  value (exec (e :: es) s) =
  value (dispatch e s) :: value (exec es (node (dispatch e s))).
Proof.
  simpl. unfold bind, value, node.
  destruct (dispatch e s) as [[r s1] t1]. simpl.
  destruct (exec es s1) as [[rs s2] t2]. reflexivity.
Qed.

(** X12.  Every event is answered, in order: a controller command is
    acknowledged with true whether it was carried out, rejected or
    unknown; a state query is answered with true; messages and ticks get
    no reply. *)
Theorem every_request_is_acknowledged (es : list Event) (s : Node) :
  Forall2 reply_matches es (value (exec es s)).
Proof.
  revert s. induction es as [| e es IH]; intros s.
  - constructor.
  - rewrite exec_cons_value. constructor; [| apply IH].
    destruct e as [pathMsg | odometry | command | | ]; unfold_node; simpl.
    + destruct (currentlyExecutingPlan_ s); simpl; [reflexivity |].
      destruct (se2_navigation_msgs.segment_ pathMsg); reflexivity.
    + reflexivity.
    + destruct command; simpl.
      * destruct (planReceived_ s); simpl; [| reflexivity].
        destruct (currentlyExecutingPlan_ s); reflexivity.
      * destruct (currentlyExecutingPlan_ s); reflexivity.
      * reflexivity.
    + eexists. reflexivity.
    + destruct (planReceived_ s && receivedStartTrackingCommand_ s); simpl; [| reflexivity].
      destruct (pure_pursuit.advance (pathTracker_ s)) as [[ | ] t]; reflexivity.
Qed.

(** X13.  Tracking lasts as long as the tracker succeeds: from [Tracking],
    [n] ticks at which [advance()] answers true publish the hard-coded
    command [n] times, never call [stopTracking()], and leave the session
    in [Tracking] with the session flags as they were. *)
Theorem tracking_persists_while_tracker_succeeds (n : nat) (s : Node) :
  status s = Tracking ->
  succeeds n (pathTracker_ s) ->
  let r := exec (repeat Tick n) s in
  published (trace r) = repeat fixed_command n /\
  stopTracking_calls (trace r) = 0 /\
  status (node r) = Tracking /\
  currentlyExecutingPlan_ (node r) = currentlyExecutingPlan_ s.
Proof.
  revert s. induction n as [| n IH]; intros s Hst Hok r; subst r.
  - repeat split. exact Hst.
  - destruct Hok as [Hadv Hok].
    pose proof Hst as Hst0.
    apply status_Tracking in Hst. destruct Hst as [Hp Hr].
    assert (Hnode : node (dispatch Tick s) =
                    set_pathTracker_ (snd (pure_pursuit.advance (pathTracker_ s))) s).
    { unfold_node. rewrite Hp, Hr. simpl.
      destruct (pure_pursuit.advance (pathTracker_ s)) as [ok t].
      simpl in Hadv. subst ok. reflexivity. }
    assert (Htrace : trace (dispatch Tick s) =
                     [Call call_advance; Call call_getSteeringAngle;
                      Call call_getLongitudinalVelocity; Publish fixed_command]).
    { unfold_node. rewrite Hp, Hr. simpl.
      destruct (pure_pursuit.advance (pathTracker_ s)) as [ok t].
      simpl in Hadv. subst ok. reflexivity. }
    change (repeat Tick (S n)) with (Tick :: repeat Tick n).
    rewrite exec_cons_trace, exec_cons_node, Hnode, Htrace.
    destruct (IH (set_pathTracker_ (snd (pure_pursuit.advance (pathTracker_ s))) s))
      as (IH1 & IH2 & IH3 & IH4).
    + apply status_Tracking. split; assumption.
    + exact Hok.
    + simpl in IH1, IH2, IH3, IH4.
      repeat split.
      * simpl. now rewrite IH1.
      * exact IH2.
      * exact IH3.
      * exact IH4.
Qed.

End Node.

(** ** The properties at concrete inputs *)

Local Abbreviation demo_initial answers := (initial 0.01%float (demo_tracker answers)).
Local Abbreviation demo_after es answers :=
  (node (exec demo_default demo_failProof es (demo_initial answers))).
Local Abbreviation start := (ControllerCommandRequest se2_navigation_msgs.StartTracking).
Local Abbreviation stop := (ControllerCommandRequest se2_navigation_msgs.StopTracking).

(** The node after one tick and one staged plan is not tracking, and its
    next tick publishes the fail-safe command. *)
Lemma advance_not_tracking_publishes_fail_safe_witness :
  status (demo_after [Tick; PathMsg demo_plan1] [true]) <> Tracking /\
  advance demo_default demo_failProof (demo_after [Tick; PathMsg demo_plan1] [true]) =
    (tt, demo_after [Tick; PathMsg demo_plan1] [true], [Publish demo_failProof]).
Proof.
  split.
  - vm_compute. discriminate.
  - apply (advance_not_tracking_publishes_fail_safe demo_default demo_failProof
             [Tick; PathMsg demo_plan1] (demo_initial [true])).
    vm_compute. discriminate.
Defined.

(** Plan, start, and a tracker whose first [advance] fails. *)
Lemma advance_tracker_failure_publishes_fixed_command_witness :
  status (demo_after [PathMsg demo_plan1; start] [false]) = Tracking /\
  fst (pure_pursuit.advance (pathTracker_ (demo_after [PathMsg demo_plan1; start] [false])))
    = false /\
  published
    (trace (advance demo_default demo_failProof
              (demo_after [PathMsg demo_plan1; start] [false]))) = [fixed_command] /\
  published
    (trace (advance demo_default demo_failProof
              (demo_after [PathMsg demo_plan1; start] [false]))) <> [demo_failProof].
Proof.
  assert (Hst : status (demo_after [PathMsg demo_plan1; start] [false]) = Tracking)
    by reflexivity.
  assert (Hadv : fst (pure_pursuit.advance
                        (pathTracker_ (demo_after [PathMsg demo_plan1; start] [false])))
                 = false) by reflexivity.
  split; [exact Hst |]. split; [exact Hadv |].
  destruct (advance_tracker_failure_publishes_fixed_command demo_default demo_failProof
              _ Hst Hadv) as (_ & _ & _ & Hpub & Hneq).
  split; [exact Hpub | exact (Hneq eq_refl)].
Defined.

(** Plan, start, and a tracker whose first [advance] succeeds. *)
Lemma advance_tracker_success_publishes_fixed_command_witness :
  status (demo_after [PathMsg demo_plan1; start] [true]) = Tracking /\
  fst (pure_pursuit.advance (pathTracker_ (demo_after [PathMsg demo_plan1; start] [true])))
    = true /\
  published
    (trace (advance demo_default demo_failProof
              (demo_after [PathMsg demo_plan1; start] [true]))) = [fixed_command].
Proof.
  assert (Hst : status (demo_after [PathMsg demo_plan1; start] [true]) = Tracking)
    by reflexivity.
  assert (Hadv : fst (pure_pursuit.advance
                        (pathTracker_ (demo_after [PathMsg demo_plan1; start] [true])))
                 = true) by reflexivity.
  split; [exact Hst |]. split; [exact Hadv |].
  exact (proj1 (advance_tracker_success_publishes_fixed_command demo_default demo_failProof
                  _ Hst Hadv)).
Defined.

(** Plan, start, two ticks, then StopTracking. *)
Lemma stop_command_resets_session_witness :
  flags_in_sync (demo_after [PathMsg demo_plan1; start; Tick; Tick] [true; true]) /\
  status (demo_after [PathMsg demo_plan1; start; Tick; Tick] [true; true]) = Tracking /\
  flags_cleared
    (node (controllerCommandService se2_navigation_msgs.StopTracking
             (demo_after [PathMsg demo_plan1; start; Tick; Tick] [true; true]))) /\
  stopTracking_calls
    (trace (controllerCommandService se2_navigation_msgs.StopTracking
              (demo_after [PathMsg demo_plan1; start; Tick; Tick] [true; true]))) = 1.
Proof.
  assert (Hsync : flags_in_sync
                    (demo_after [PathMsg demo_plan1; start; Tick; Tick] [true; true]))
    by (split; [reflexivity | intros _; reflexivity]).
  assert (Hst : status (demo_after [PathMsg demo_plan1; start; Tick; Tick] [true; true])
                = Tracking) by reflexivity.
  split; [exact Hsync |]. split; [exact Hst |].
  destruct (stop_command_resets_session Hsync Hst) as (_ & Hcl & _ & Hn).
  split; [exact Hcl | exact Hn].
Defined.

(** StartTracking before any plan was received. *)
Lemma rejected_input_leaves_node_unchanged_witness :
  flags_in_sync (demo_initial [true]) /\
  rejected (demo_initial [true]) start = true /\
  node (dispatch demo_default demo_failProof start (demo_initial [true])) =
    demo_initial [true].
Proof.
  assert (Hsync : flags_in_sync (demo_initial [true]))
    by (split; [reflexivity | discriminate]).
  assert (Hrej : rejected (demo_initial [true]) start = true) by reflexivity.
  split; [exact Hsync |]. split; [exact Hrej |].
  exact (proj1 (rejected_input_leaves_node_unchanged demo_default demo_failProof
                  _ Hsync Hrej)).
Defined.

(** A plan while tracking, the sequence P1, start, P2, and a plan while P1
    is staged. *)
Lemma pathCallback_rejects_only_while_executing_witness :
  (currentlyExecutingPlan_ (demo_after [PathMsg demo_plan1; start] [true]) = true /\
   node (pathCallback demo_plan2 (demo_after [PathMsg demo_plan1; start] [true])) =
     demo_after [PathMsg demo_plan1; start] [true]) /\
  (status (demo_initial [true]) = Idle /\
   warns (trace (pathCallback demo_plan2
                   (demo_after [PathMsg demo_plan1; start] [true]))) = true) /\
  (status (demo_after [PathMsg demo_plan1] [true]) = PlanStaged /\
   warns (trace (pathCallback demo_plan2 (demo_after [PathMsg demo_plan1] [true]))) = false).
Proof.
  assert (Hexe : currentlyExecutingPlan_ (demo_after [PathMsg demo_plan1; start] [true])
                 = true) by reflexivity.
  assert (Hsync0 : flags_in_sync (demo_initial [true]))
    by (split; [reflexivity | discriminate]).
  assert (Hidle : status (demo_initial [true]) = Idle) by reflexivity.
  assert (Hne1 : se2_navigation_msgs.segment_ demo_plan1 <> []) by discriminate.
  assert (Hsync1 : flags_in_sync (demo_after [PathMsg demo_plan1] [true]))
    by (split; [reflexivity | discriminate]).
  assert (Hstaged : status (demo_after [PathMsg demo_plan1] [true]) = PlanStaged)
    by reflexivity.
  assert (Hne2 : se2_navigation_msgs.segment_ demo_plan2 <> []) by discriminate.
  split; [| split].
  - split; [exact Hexe |].
    destruct (pathCallback_rejects_only_while_executing demo_default demo_failProof
                (demo_after [PathMsg demo_plan1; start] [true]) demo_plan1 demo_plan2)
      as (H & _ & _).
    rewrite (H Hexe). reflexivity.
  - split; [exact Hidle |].
    destruct (pathCallback_rejects_only_while_executing demo_default demo_failProof
                (demo_initial [true]) demo_plan1 demo_plan2) as (_ & H & _).
    destruct (H Hsync0 Hidle Hne1) as [_ Hrej].
    rewrite Hrej. reflexivity.
  - split; [exact Hstaged |].
    destruct (pathCallback_rejects_only_while_executing demo_default demo_failProof
                (demo_after [PathMsg demo_plan1] [true]) demo_plan1 demo_plan2)
      as (_ & _ & H).
    exact (proj1 (proj2 (H Hsync1 Hstaged Hne2))).
Defined.

(** C3 as stated fails: with plan P1 staged the status is not [Idle], yet a
    second, non-empty plan P2 is not rejected: no warning is logged, the
    plan is logged as received. *)
Lemma staged_session_accepts_second_plan :
  status (demo_after [PathMsg demo_plan1] [true]) = PlanStaged /\
  status (demo_after [PathMsg demo_plan1] [true]) <> Idle /\
  warns (trace (pathCallback demo_plan2 (demo_after [PathMsg demo_plan1] [true]))) = false /\
  trace (pathCallback demo_plan2 (demo_after [PathMsg demo_plan1] [true])) =
    [LogSize INFO "PathFollowerRos subscriber received a plan, num segments: " 2].
Proof.
  split; [reflexivity |].
  split; [vm_compute; discriminate |].
  split; reflexivity.
Qed.

(** Two different non-empty plans arriving in the idle initial state. *)
Lemma pathCallback_stages_without_storing_witness :
  flags_in_sync (demo_initial [true]) /\
  status (demo_initial [true]) = Idle /\
  se2_navigation_msgs.segment_ demo_plan1 <> [] /\
  se2_navigation_msgs.segment_ demo_plan2 <> [] /\
  status (node (pathCallback demo_plan1 (demo_initial [true]))) = PlanStaged /\
  node (pathCallback demo_plan2 (demo_initial [true])) =
    node (pathCallback demo_plan1 (demo_initial [true])).
Proof.
  assert (Hsync : flags_in_sync (demo_initial [true]))
    by (split; [reflexivity | discriminate]).
  assert (Hidle : status (demo_initial [true]) = Idle) by reflexivity.
  assert (Hne1 : se2_navigation_msgs.segment_ demo_plan1 <> []) by discriminate.
  assert (Hne2 : se2_navigation_msgs.segment_ demo_plan2 <> []) by discriminate.
  split; [exact Hsync |]. split; [exact Hidle |].
  split; [exact Hne1 |]. split; [exact Hne2 |].
  exact (proj2 (@pathCallback_stages_without_storing _ (demo_initial [true])
                  demo_plan1 demo_plan2 Hsync Hidle Hne1 Hne2)).
Defined.

(** C4 as stated fails: the node after accepting plan P1 in [Idle] is the
    node after accepting the different plan P2, so no member of the node
    holds the accepted plan: no reading of the node returns P1 after P1
    and P2 after P2. *)
Lemma accepted_plan_is_not_stored :
  demo_plan1 <> demo_plan2 /\
  status (demo_initial [true]) = Idle /\
  node (pathCallback demo_plan1 (demo_initial [true])) =
    node (pathCallback demo_plan2 (demo_initial [true])) /\
  forall currentPlan : PriusControllerRos ScriptedTracker -> option se2_navigation_msgs.Path,
    ~ (currentPlan (node (pathCallback demo_plan1 (demo_initial [true]))) = Some demo_plan1 /\
       currentPlan (node (pathCallback demo_plan2 (demo_initial [true]))) = Some demo_plan2).
Proof.
  split; [discriminate |].
  split; [reflexivity |].
  split; [reflexivity |].
  intros currentPlan [H1 H2].
  change (node (pathCallback demo_plan2 (demo_initial [true])))
    with (node (pathCallback demo_plan1 (demo_initial [true]))) in H2.
  rewrite H1 in H2. discriminate H2.
Qed.

(** C8 as stated fails: before any odometry message, the state service
    does not answer empty: it returns true with the pose and twist of a
    default-constructed message, all zeros. *)
Lemma state_query_before_odometry_is_not_empty :
  value (currentStateRequestService (demo_initial [true])) =
    (true, response_of nav_msgs.Odometry_default) /\
  stateQuery (demo_after [] [true]) = Some (response_of nav_msgs.Odometry_default) /\
  stateQuery (demo_after [] [true]) <> None.
Proof.
  split; [reflexivity |].
  split; [reflexivity |].
  discriminate.
Qed.

(** The end-to-end scenario of the specification: a plan of three
    segments, StartTracking, five successful ticks, StopTracking, one more
    tick.  The five ticks publish the hard-coded command, the last one the
    fail-safe command, and the tracker is stopped once. *)
Example end_to_end_scenario :
  let plan := {| se2_navigation_msgs.segment_ := [demo_segment; demo_segment; demo_segment] |} in
  let r := exec demo_default demo_failProof
             [PathMsg plan; start; Tick; Tick; Tick; Tick; Tick; stop; Tick]
             (demo_initial [true; true; true; true; true]) in
  published (trace r) =
    [fixed_command; fixed_command; fixed_command; fixed_command; fixed_command;
     demo_failProof] /\
  stopTracking_calls (trace r) = 1 /\
  status (node r) = Idle.
Proof. repeat split. Qed.

(** ** The further properties at concrete inputs *)

(** A stop command while tracking ends tracking and stops the tracker once. *)
Lemma stopTracking_called_iff_tracking_ends_witness :
  flags_in_sync (demo_after [PathMsg demo_plan1; start] [true]) /\
  stopTracking_calls
    (trace (dispatch demo_default demo_failProof stop
              (demo_after [PathMsg demo_plan1; start] [true]))) = 1.
Proof.
  assert (Hsync : flags_in_sync (demo_after [PathMsg demo_plan1; start] [true]))
    by (split; [reflexivity | intros _; reflexivity]).
  split; [exact Hsync |].
  exact (stopTracking_called_iff_tracking_ends demo_default demo_failProof stop Hsync).
Defined.

(** A failed tick while tracking leads to [Idle]. *)
Lemma status_follows_table_witness :
  flags_in_sync (demo_after [PathMsg demo_plan1; start] [false]) /\
  status (node (dispatch demo_default demo_failProof Tick
                  (demo_after [PathMsg demo_plan1; start] [false]))) = Idle.
Proof.
  assert (Hsync : flags_in_sync (demo_after [PathMsg demo_plan1; start] [false]))
    by (split; [reflexivity | intros _; reflexivity]).
  split; [exact Hsync |].
  exact (status_follows_table demo_default demo_failProof Tick Hsync).
Defined.

(** Commands, ticks and an empty plan, but no plan with segments. *)
Lemma no_plan_no_tracking_witness :
  planReceived_ (demo_initial [true]) = false /\
  forallb (fun e => negb (brings_plan e))
    [start; Tick; stop; Tick; PathMsg demo_empty_plan; Tick] = true /\
  published
    (trace (exec demo_default demo_failProof
              [start; Tick; stop; Tick; PathMsg demo_empty_plan; Tick]
              (demo_initial [true]))) =
    [demo_failProof; demo_failProof; demo_failProof].
Proof.
  assert (Hp : planReceived_ (demo_initial [true]) = false) by reflexivity.
  assert (Hes : forallb (fun e => negb (brings_plan e))
                  [start; Tick; stop; Tick; PathMsg demo_empty_plan; Tick] = true)
    by reflexivity.
  split; [exact Hp |]. split; [exact Hes |].
  exact (proj2 (no_plan_no_tracking demo_default demo_failProof _ _ Hp Hes)).
Defined.

(** A plan, ticks and a stop command, but no start command. *)
Lemma no_start_no_tracking_witness :
  receivedStartTrackingCommand_ (demo_initial [true]) = false /\
  forallb (fun e => negb (is_start e)) [PathMsg demo_plan1; Tick; stop; Tick] = true /\
  published
    (trace (exec demo_default demo_failProof [PathMsg demo_plan1; Tick; stop; Tick]
              (demo_initial [true]))) =
    [demo_failProof; demo_failProof].
Proof.
  assert (Hr : receivedStartTrackingCommand_ (demo_initial [true]) = false) by reflexivity.
  assert (Hes : forallb (fun e => negb (is_start e))
                  [PathMsg demo_plan1; Tick; stop; Tick] = true) by reflexivity.
  split; [exact Hr |]. split; [exact Hes |].
  exact (proj2 (no_start_no_tracking demo_default demo_failProof _ _ Hr Hes)).
Defined.

(** Stop while tracking, then a start command and a tick. *)
Lemma stop_discards_plan_witness :
  flags_in_sync (demo_after [PathMsg demo_plan1; start] [true; true]) /\
  status (demo_after [PathMsg demo_plan1; start] [true; true]) = Tracking /\
  forallb (fun e => negb (brings_plan e)) [start; Tick] = true /\
  published
    (trace (exec demo_default demo_failProof [start; Tick]
              (node (controllerCommandService se2_navigation_msgs.StopTracking
                       (demo_after [PathMsg demo_plan1; start] [true; true]))))) =
    [demo_failProof].
Proof.
  assert (Hsync : flags_in_sync (demo_after [PathMsg demo_plan1; start] [true; true]))
    by (split; [reflexivity | intros _; reflexivity]).
  assert (Hst : status (demo_after [PathMsg demo_plan1; start] [true; true]) = Tracking)
    by reflexivity.
  assert (Hes : forallb (fun e => negb (brings_plan e)) [start; Tick] = true)
    by reflexivity.
  split; [exact Hsync |]. split; [exact Hst |]. split; [exact Hes |].
  exact (proj2 (stop_discards_plan demo_default demo_failProof _ Hsync Hst Hes)).
Defined.

(** A failed tick while tracking, then a start command and two ticks. *)
Lemma tracker_failure_ends_tracking_witness :
  status (demo_after [PathMsg demo_plan1; start] [false]) = Tracking /\
  fst (pure_pursuit.advance (pathTracker_ (demo_after [PathMsg demo_plan1; start] [false])))
    = false /\
  forallb (fun e => negb (brings_plan e)) [start; Tick; Tick] = true /\
  published
    (trace (exec demo_default demo_failProof [start; Tick; Tick]
              (node (advance demo_default demo_failProof
                       (demo_after [PathMsg demo_plan1; start] [false]))))) =
    [demo_failProof; demo_failProof].
Proof.
  assert (Hst : status (demo_after [PathMsg demo_plan1; start] [false]) = Tracking)
    by reflexivity.
  assert (Hadv : fst (pure_pursuit.advance
                        (pathTracker_ (demo_after [PathMsg demo_plan1; start] [false])))
                 = false) by reflexivity.
  assert (Hes : forallb (fun e => negb (brings_plan e)) [start; Tick; Tick] = true)
    by reflexivity.
  split; [exact Hst |]. split; [exact Hadv |]. split; [exact Hes |].
  exact (proj2 (tracker_failure_ends_tracking demo_default demo_failProof _ _ Hst Hadv Hes)).
Defined.

(** The flag raised by a failed tick survives a full new tracking cycle. *)
Lemma publishTrackingStatus_raised_by_failed_tick_only_witness :
  publishTrackingStatus_ (demo_after [PathMsg demo_plan1; start; Tick] [false]) = true /\
  publishTrackingStatus_
    (node (exec demo_default demo_failProof [PathMsg demo_plan2; start; Tick; stop]
             (demo_after [PathMsg demo_plan1; start; Tick] [false]))) = true.
Proof.
  assert (H : publishTrackingStatus_
                (demo_after [PathMsg demo_plan1; start; Tick] [false]) = true)
    by reflexivity.
  split; [exact H |].
  exact (proj2 (publishTrackingStatus_raised_by_failed_tick_only
                  demo_default demo_failProof Tick
                  [PathMsg demo_plan2; start; Tick; stop] _) H).
Defined.

(** A plan, a start command, odometry and a state query. *)
Lemma tracker_reached_only_by_tick_and_stop_witness :
  forallb (fun e => negb (is_Tick e || is_stop e))
    [PathMsg demo_plan1; start; OdometryMsg nav_msgs.Odometry_default;
     CurrentStateRequest] = true /\
  tracker_calls
    (trace (exec demo_default demo_failProof
              [PathMsg demo_plan1; start; OdometryMsg nav_msgs.Odometry_default;
               CurrentStateRequest] (demo_initial [true]))) = [] /\
  pathTracker_
    (node (exec demo_default demo_failProof
             [PathMsg demo_plan1; start; OdometryMsg nav_msgs.Odometry_default;
              CurrentStateRequest] (demo_initial [true]))) = demo_tracker [true].
Proof.
  assert (Hes : forallb (fun e => negb (is_Tick e || is_stop e))
                  [PathMsg demo_plan1; start; OdometryMsg nav_msgs.Odometry_default;
                   CurrentStateRequest] = true) by reflexivity.
  split; [exact Hes |].
  exact (tracker_reached_only_by_tick_and_stop demo_default demo_failProof _
           (demo_initial [true]) Hes).
Defined.

(** Three ticks with a tracker that succeeds three times. *)
Lemma tracking_persists_while_tracker_succeeds_witness :
  status (demo_after [PathMsg demo_plan1; start] [true; true; true]) = Tracking /\
  succeeds 3 (pathTracker_ (demo_after [PathMsg demo_plan1; start] [true; true; true])) /\
  published
    (trace (exec demo_default demo_failProof [Tick; Tick; Tick]
              (demo_after [PathMsg demo_plan1; start] [true; true; true]))) =
    [fixed_command; fixed_command; fixed_command].
Proof.
  assert (Hst : status (demo_after [PathMsg demo_plan1; start] [true; true; true])
                = Tracking) by reflexivity.
  assert (Hok : succeeds 3 (pathTracker_
                              (demo_after [PathMsg demo_plan1; start] [true; true; true])))
    by (repeat split).
  split; [exact Hst |]. split; [exact Hok |].
  exact (proj1 (tracking_persists_while_tracker_succeeds demo_default demo_failProof
                  3 _ Hst Hok)).
Defined.
